(** * opengb.printer.base: printer states, event callbacks and the printer interface

    A shallow embedding of [opengb/printer/base.py] together with the
    properties of its event wire format and of its state bookkeeping.

    Conventions of the embedding:
    - a Python [int] is a [Z]; a Python [str] is the list of its code points;
    - a Python [dict] is an association list in insertion order (the order
      [json.dumps] walks it in);
    - a method of a mutable object takes the object and returns the object
      after the call together with the way the call ended ([status]). *)

From Stdlib Require Import ZArith NArith List String Ascii Bool Lia.
From Stdlib Require Import DecimalString Permutation.
Import ListNotations.

Local Open Scope string_scope.
Local Open Scope Z_scope.
Local Open Scope list_scope.

(** ** Python strings *)

(** A [str] is a sequence of Unicode code points. *)
Definition pystr := list N.

(** The [str] spelled by an ASCII literal of the source text. *)
Definition str (s : string) : pystr :=
  List.map N_of_ascii (list_ascii_of_string s).

Fixpoint pystr_eqb (a b : pystr) : bool :=
  match a, b with
  | [], [] => true
  | x :: a', y :: b' => (x =? y)%N && pystr_eqb a' b'
  | _, _ => false
  end.

(** ** class State(enum.Enum) *)

Inductive State : Type :=
| DISCONNECTED
| READY
| EXECUTING
| PAUSED
| ERROR.

(** [State.<member>.value] *)
Definition value (s : State) : Z :=
  match s with
  | DISCONNECTED => 10
  | READY => 20
  | EXECUTING => 30
  | PAUSED => 40
  | ERROR => 100
  end.

(** [State.<member>.name] *)
Definition name (s : State) : string :=
  match s with
  | DISCONNECTED => "DISCONNECTED"
  | READY => "READY"
  | EXECUTING => "EXECUTING"
  | PAUSED => "PAUSED"
  | ERROR => "ERROR"
  end.

(** [list(State)]: the members in definition order. *)
Definition State_members : list State :=
  [DISCONNECTED; READY; EXECUTING; PAUSED; ERROR].

(** [State(v)]: lookup of a member by value. *)
Definition State_of_value (v : Z) : option State :=
  List.find (fun s => value s =? v) State_members.

Definition State_eqb (a b : State) : bool := value a =? value b.

(** ** Exceptions and the ways a call can end *)

Inductive exn : Type :=
| NotReadyException
| TypeError
| ValueError.

(** A call returns a value, raises, or is parked inside a blocking library
    call that has not been released. *)
Inductive status (A : Type) : Type :=
| Returned (a : A)
| Raised (e : exn)
| Blocked.

Arguments Returned {A} a.
Arguments Raised {A} e.
Arguments Blocked {A}.

(** ** Text helpers used by the JSON encoder *)

Definition dquote : string := String "034"%char EmptyString.

(** [int.__repr__] *)
Definition int_repr (z : Z) : string :=
  NilZero.string_of_int (Z.to_int z).

Definition hex_digit (n : N) : ascii :=
  match n with
  | 0%N => "0" | 1%N => "1" | 2%N => "2" | 3%N => "3"
  | 4%N => "4" | 5%N => "5" | 6%N => "6" | 7%N => "7"
  | 8%N => "8" | 9%N => "9" | 10%N => "a" | 11%N => "b"
  | 12%N => "c" | 13%N => "d" | 14%N => "e" | _ => "f"
  end%char.

(** ['\\u{0:04x}'.format(n)] for [n < 0x10000]. *)
Definition u_escape (n : N) : string :=
  String "\" (String "u"
    (String (hex_digit (N.land (N.shiftr n 12) 15))
    (String (hex_digit (N.land (N.shiftr n 8) 15))
    (String (hex_digit (N.land (N.shiftr n 4) 15))
    (String (hex_digit (N.land n 15)) EmptyString))))).

(** One code point under [json.encoder.py_encode_basestring_ascii]:
    the named escapes, printable ASCII unchanged, everything else as
    [\uXXXX], with a surrogate pair above the basic plane. *)
Definition escape_char (c : N) : string :=
  if (c =? 34)%N then String "\" dquote
  else if (c =? 92)%N then "\\"
  else if (c =? 10)%N then "\n"
  else if (c =? 13)%N then "\r"
  else if (c =? 9)%N then "\t"
  else if (c =? 12)%N then "\f"
  else if (c =? 8)%N then "\b"
  else if ((32 <=? c) && (c <=? 126))%N then String (ascii_of_N c) EmptyString
  else if (c <? 65536)%N then u_escape c
  else
    let n := (c - 65536)%N in
    let s1 := N.lor 55296 (N.land (N.shiftr n 10) 1023) in
    let s2 := N.lor 56320 (N.land n 1023) in
    (u_escape s1 ++ u_escape s2)%string.

Definition encode_basestring_ascii (s : pystr) : string :=
  (dquote ++ String.concat "" (List.map escape_char s) ++ dquote)%string.

(** Test helper: write expected JSON text with ['] standing for the double
    quote. *)
Fixpoint sq (s : string) : string :=
  match s with
  | EmptyString => EmptyString
  | String c r => String (if Ascii.eqb c "'" then "034"%char else c) (sq r)
  end.

(** ** multiprocessing.Queue *)

(** The part of a queue that [put] reads and writes: its bound ([None] when
    the queue was made without one), whether it has been closed, and the
    records waiting in it, oldest first. *)
Record Queue : Type := mkQueue {
  maxsize : option nat;
  closed : bool;
  items : list string
}.

Definition full (q : Queue) : bool :=
  match maxsize q with
  | None => false
  | Some m => (m <=? List.length (items q))%nat
  end.

Definition enqueue (q : Queue) (obj : string) : Queue :=
  {| maxsize := maxsize q; closed := closed q; items := items q ++ [obj] |}.

(** [Queue.put(obj)] with its defaults [block=True, timeout=None]: a closed
    queue refuses the object by raising; a full one makes the caller wait for
    a free slot, with no time limit, so [queue.Full] is never raised. *)
Definition put (q : Queue) (obj : string) : Queue * status unit :=
  if closed q then (q, Raised ValueError)
  else if full q then (q, Blocked)
  else (enqueue q obj, Returned tt).

(** A queue on which [put] goes through at once. *)
Definition accepts (q : Queue) : bool := negb (closed q) && negb (full q).

(** ** Floats with a whole value *)

(** The floats of whole value below [10 ^ 16] in size, each given by that
    value; [float.__repr__] writes such a float as the integer followed by
    [.0]. They serve to run the definitions on actual arguments. *)
Definition whole_float : Type := Z.

Definition whole_float_repr (f : whole_float) : string :=
  (int_repr f ++ ".0")%string.

(** ** Queues to run the definitions on *)

Definition empty_queue : Queue :=
  {| maxsize := None; closed := false; items := [] |}.

(** A queue bounded to one record that already holds one. *)
Definition full_queue : Queue :=
  {| maxsize := Some 1%nat; closed := false; items := ["earlier"%string] |}.

Section Base.

(** Python's [float] and the text [json.dumps] writes for one
    ([float.__repr__], with [NaN] and [Infinity] for the non-finite ones). *)
Variable float : Type.
Variable float_repr : float -> string.

(** ** The values that reach [json.dumps] *)

#[warnings="-register-all"]
Inductive pyval : Type :=
| PyInt (z : Z)
| PyFloat (f : float)
| PyStr (s : pystr)
| PyDict (d : list (pystr * pyval)).

Definition dict := list (pystr * pyval).

(** [d[k]] *)
Fixpoint dict_get (d : dict) (k : pystr) : option pyval :=
  match d with
  | [] => None
  | (k', v) :: r => if pystr_eqb k' k then Some v else dict_get r k
  end.

(** [d[k] = v]: an existing key keeps its place, a new one goes last. *)
Fixpoint dict_set (d : dict) (k : pystr) (v : pyval) : dict :=
  match d with
  | [] => [(k, v)]
  | (k', v') :: r =>
      if pystr_eqb k' k then (k', v) :: r else (k', v') :: dict_set r k v
  end.

(** [list(d.keys())] *)
Definition keys (d : dict) : list pystr := List.map fst d.

(** [json.dumps(v)] with the default separators and [ensure_ascii]. *)
Fixpoint json_dumps (v : pyval) : string :=
  match v with
  | PyInt z => int_repr z
  | PyFloat f => float_repr f
  | PyStr s => encode_basestring_ascii s
  | PyDict d =>
      ("{" ++
       String.concat ", "
         ((fix members (l : list (pystr * pyval)) : list string :=
             match l with
             | [] => []
             | (k, x) :: r =>
                 (encode_basestring_ascii k ++ ": " ++ json_dumps x)
                 :: members r
             end) d)
       ++ "}")%string
  end.

(** ** class StateEncoder(json.JSONEncoder) *)

(** The objects [default] can be handed: a member of an [enum.Enum] class
    (given by its class name, member name and value), or an object that is
    no enum member. *)
Inductive pyobj : Type :=
| EnumMember (cls : string) (member : string) (val : pyval)
| Other (v : pyval).

(** A member of [State] as an object. *)
Definition State_obj (s : State) : pyobj :=
  EnumMember "State" (name s) (PyInt (value s)).

(** [isinstance(obj, enum.Enum)] *)
Definition is_Enum (obj : pyobj) : bool :=
  match obj with
  | EnumMember _ _ _ => true
  | Other _ => false
  end.

(** [json.JSONEncoder.default]: always raises [TypeError]. *)
Definition JSONEncoder_default (obj : pyobj) : status pyval :=
  Raised TypeError.

Definition StateEncoder_default (obj : pyobj) : status pyval :=
  match obj with
  | EnumMember _ member _ => Returned (PyStr (str member))
  | Other _ => JSONEncoder_default obj
  end.

(** ** The callback interface *)

(** What [IPrinter] may call on [self._callbacks]. [Self] is the state of
    the object the calls are made on; every method hands back the object
    after the call and the way the call ended. *)
Class Callbacks (Self : Type) : Type := {
  log : Self -> Z -> pystr -> Self * status unit;
  state_change : Self -> State -> State -> Self * status unit;
  temp_update :
    Self -> float -> float -> float -> float -> float -> float ->
    Self * status unit;
  position_update : Self -> float -> float -> float -> Self * status unit;
  progress_update : Self -> Z -> Z -> Self * status unit;
  z_change : Self -> float -> Self * status unit
}.

(** One call of a callback, with its arguments. *)
Inductive callback_call : Type :=
| Call_log (level : Z) (message : pystr)
| Call_state_change (old new : State)
| Call_temp_update
    (bed_current bed_target nozzle1_current nozzle1_target
     nozzle2_current nozzle2_target : float)
| Call_position_update (x y z : float)
| Call_progress_update (current_line total_lines : Z)
| Call_z_change (position : float).

(** Make the call [c] on [self]. *)
Definition invoke {Self : Type} `{Callbacks Self}
    (self : Self) (c : callback_call) : Self * status unit :=
  match c with
  | Call_log level message => log self level message
  | Call_state_change old new => state_change self old new
  | Call_temp_update bc bt n1c n1t n2c n2t =>
      temp_update self bc bt n1c n1t n2c n2t
  | Call_position_update x y z => position_update self x y z
  | Call_progress_update current_line total_lines =>
      progress_update self current_line total_lines
  | Call_z_change position => z_change self position
  end.

(** ** class PrinterCallbacks(object) *)

(** The placeholder callbacks: an object without attributes. *)
Inductive PrinterCallbacks : Type := PrinterCallbacks__init__.

Definition PrinterCallbacks_log
    (self : PrinterCallbacks) (level : Z) (message : pystr)
  : PrinterCallbacks * status unit := (self, Returned tt).

Definition PrinterCallbacks_state_change
    (self : PrinterCallbacks) (old new : State)
  : PrinterCallbacks * status unit := (self, Returned tt).

Definition PrinterCallbacks_temp_update
    (self : PrinterCallbacks)
    (bed_current bed_target nozzle1_current nozzle1_target
     nozzle2_current nozzle2_target : float)
  : PrinterCallbacks * status unit := (self, Returned tt).

Definition PrinterCallbacks_position_update
    (self : PrinterCallbacks) (x y z : float)
  : PrinterCallbacks * status unit := (self, Returned tt).

Definition PrinterCallbacks_progress_update
    (self : PrinterCallbacks) (current_line total_lines : Z)
  : PrinterCallbacks * status unit := (self, Returned tt).

Definition PrinterCallbacks_z_change
    (self : PrinterCallbacks) (new_z : float)
  : PrinterCallbacks * status unit := (self, Returned tt).

#[local] Instance PrinterCallbacks_methods : Callbacks PrinterCallbacks := {
  log := PrinterCallbacks_log;
  state_change := PrinterCallbacks_state_change;
  temp_update := PrinterCallbacks_temp_update;
  position_update := PrinterCallbacks_position_update;
  progress_update := PrinterCallbacks_progress_update;
  z_change := PrinterCallbacks_z_change
}.

(** ** class QueuedPrinterCallbacks(PrinterCallbacks) *)

Record QueuedPrinterCallbacks : Type := QueuedPrinterCallbacks__init__ {
  _from_printer : Queue
}.

Definition _publish (self : QueuedPrinterCallbacks) (event : dict)
  : QueuedPrinterCallbacks * status unit :=
  let event := dict_set event (str "jsonrpc") (PyStr (str "2.0")) in
  let (q, r) := put (_from_printer self) (json_dumps (PyDict event)) in
  ({| _from_printer := q |}, r).

Definition QueuedPrinterCallbacks_log
    (self : QueuedPrinterCallbacks) (level : Z) (message : pystr) :=
  _publish self
    [ (str "event", PyStr (str "log"));
      (str "params", PyDict
         [ (str "level", PyInt level);
           (str "msg", PyStr message) ]) ].

Definition QueuedPrinterCallbacks_state_change
    (self : QueuedPrinterCallbacks) (old new : State) :=
  _publish self
    [ (str "event", PyStr (str "state_change"));
      (str "params", PyDict
         [ (str "old", PyInt (value old));
           (str "new", PyInt (value new)) ]) ].

Definition QueuedPrinterCallbacks_temp_update
    (self : QueuedPrinterCallbacks)
    (bed_current bed_target nozzle1_current nozzle1_target
     nozzle2_current nozzle2_target : float) :=
  _publish self
    [ (str "event", PyStr (str "temp_update"));
      (str "params", PyDict
         [ (str "bed_current", PyFloat bed_current);
           (str "bed_target", PyFloat bed_target);
           (str "nozzle1_current", PyFloat nozzle1_current);
           (str "nozzle1_target", PyFloat nozzle1_target);
           (str "nozzle2_current", PyFloat nozzle2_current);
           (str "nozzle2_target", PyFloat nozzle2_target) ]) ].

Definition QueuedPrinterCallbacks_position_update
    (self : QueuedPrinterCallbacks) (x y z : float) :=
  _publish self
    [ (str "event", PyStr (str "position_update"));
      (str "params", PyDict
         [ (str "x", PyFloat x);
           (str "y", PyFloat y);
           (str "z", PyFloat z) ]) ].

Definition QueuedPrinterCallbacks_progress_update
    (self : QueuedPrinterCallbacks) (current_line total_lines : Z) :=
  _publish self
    [ (str "event", PyStr (str "progress_update"));
      (str "params", PyDict
         [ (str "current_line", PyInt current_line);
           (str "total_lines", PyInt total_lines) ]) ].

Definition QueuedPrinterCallbacks_z_change
    (self : QueuedPrinterCallbacks) (position : float) :=
  _publish self
    [ (str "event", PyStr (str "z_change"));
      (str "position", PyFloat position) ].

#[local] Instance QueuedPrinterCallbacks_methods
  : Callbacks QueuedPrinterCallbacks := {
  log := QueuedPrinterCallbacks_log;
  state_change := QueuedPrinterCallbacks_state_change;
  temp_update := QueuedPrinterCallbacks_temp_update;
  position_update := QueuedPrinterCallbacks_position_update;
  progress_update := QueuedPrinterCallbacks_progress_update;
  z_change := QueuedPrinterCallbacks_z_change
}.

(** ** An observer that keeps the calls it receives *)

(** A callbacks object wrapped around another one: every method notes the
    call it received and passes it on to the object inside. The properties
    below use it to count and compare the calls a controller makes, whatever
    the object inside does with them. *)
Record Spy (Inner : Type) : Type := mkSpy {
  seen : list callback_call;
  inner : Inner
}.

Arguments mkSpy {Inner} seen inner.
Arguments seen {Inner} s.
Arguments inner {Inner} s.

Definition spy_call {Inner : Type} `{Callbacks Inner}
    (self : Spy Inner) (c : callback_call) : Spy Inner * status unit :=
  let (i, r) := invoke (inner self) c in
  ({| seen := seen self ++ [c]; inner := i |}, r).

#[local] Instance Spy_methods (Inner : Type) `{Callbacks Inner}
  : Callbacks (Spy Inner) := {
  log self level message := spy_call self (Call_log level message);
  state_change self old new := spy_call self (Call_state_change old new);
  temp_update self bc bt n1c n1t n2c n2t :=
    spy_call self (Call_temp_update bc bt n1c n1t n2c n2t);
  position_update self x y z := spy_call self (Call_position_update x y z);
  progress_update self current_line total_lines :=
    spy_call self (Call_progress_update current_line total_lines);
  z_change self position := spy_call self (Call_z_change position)
}.

(** ** class IPrinter(multiprocessing.Process) *)

(** A callbacks object of any class: its class, the methods of that class
    and the object itself. *)
Record callbacks_obj : Type := Obj {
  obj_class : Type;
  obj_methods : Callbacks obj_class;
  obj_self : obj_class
}.

Arguments Obj obj_class {obj_methods} obj_self.

(** A method call on a callbacks object, dispatched on its class. *)
Definition obj_invoke (o : callbacks_obj) (c : callback_call)
  : callbacks_obj * status unit :=
  let (self, r) := @invoke (obj_class o) (obj_methods o) (obj_self o) c in
  (@Obj (obj_class o) (obj_methods o) self, r).

Record IPrinter : Type := mkIPrinter {
  _state : State;
  _to_printer : Queue;
  _callbacks : callbacks_obj
}.

(** [IPrinter.__init__]; [baud_rate] and [port] are accepted and not used.
    The closing [super().__init__()] sets up the process object and touches
    none of the three attributes. *)
Definition IPrinter__init__
    (to_printer : Queue) (printer_callbacks : option callbacks_obj)
    (baud_rate port : option pyval) : IPrinter :=
  {| _state := DISCONNECTED;
     _to_printer := to_printer;
     _callbacks :=
       match printer_callbacks with
       | None => Obj PrinterCallbacks PrinterCallbacks__init__
       | Some cb => cb
       end |}.

Definition _update_state (self : IPrinter) (new_state : State)
  : IPrinter * status unit :=
  let old_state := _state self in
  let self :=
    {| _state := new_state;
       _to_printer := _to_printer self;
       _callbacks := _callbacks self |} in
  let (cb, r) :=
    obj_invoke (_callbacks self) (Call_state_change old_state new_state) in
  ({| _state := _state self;
      _to_printer := _to_printer self;
      _callbacks := cb |}, r).

(** [_update_state] for each state of [new_states] in turn; an exception
    from one call, or a call that does not come back, ends the sequence. *)
Fixpoint update_states (self : IPrinter) (new_states : list State)
  : IPrinter * status unit :=
  match new_states with
  | [] => (self, Returned tt)
  | n :: rest =>
      match _update_state self n with
      | (self', Returned _) => update_states self' rest
      | (self', r) => (self', r)
      end
  end.

(** The abstract methods that change what the printer does. Each body in
    [base.py] is [pass]: run on an [IPrinter] (directly, or from a subclass
    through [super()]) it returns [None] and touches nothing. *)
Definition set_temp (self : IPrinter) (bed nozzle1 nozzle2 : option float)
  : IPrinter * status unit := (self, Returned tt).

Definition move_head_relative (self : IPrinter) (x y z : float)
  : IPrinter * status unit := (self, Returned tt).

Definition move_head_absolute (self : IPrinter) (x y z : float)
  : IPrinter * status unit := (self, Returned tt).

Definition home_head (self : IPrinter) (x y z : bool)
  : IPrinter * status unit := (self, Returned tt).

Definition execute_gcode (self : IPrinter) (gcode_commands : list pystr)
  : IPrinter * status unit := (self, Returned tt).

Definition pause_execution (self : IPrinter)
  : IPrinter * status unit := (self, Returned tt).

Definition resume_execution (self : IPrinter)
  : IPrinter * status unit := (self, Returned tt).

Definition stop_execution (self : IPrinter)
  : IPrinter * status unit := (self, Returned tt).

Definition emergency_stop (self : IPrinter)
  : IPrinter * status unit := (self, Returned tt).

(** ** The state-gated operations *)

(** One call of a state-gated operation, with its arguments. *)
Inductive operation : Type :=
| Op_set_temp (bed nozzle1 nozzle2 : option float)
| Op_move_head_relative (x y z : float)
| Op_move_head_absolute (x y z : float)
| Op_home_head (x y z : bool)
| Op_execute_gcode (gcode_commands : list pystr)
| Op_pause_execution
| Op_resume_execution
| Op_stop_execution.

(** The method call an [operation] stands for, made on [self]. *)
Definition call_operation (op : operation) (self : IPrinter)
  : IPrinter * status unit :=
  match op with
  | Op_set_temp bed nozzle1 nozzle2 => set_temp self bed nozzle1 nozzle2
  | Op_move_head_relative x y z => move_head_relative self x y z
  | Op_move_head_absolute x y z => move_head_absolute self x y z
  | Op_home_head x y z => home_head self x y z
  | Op_execute_gcode gcode_commands => execute_gcode self gcode_commands
  | Op_pause_execution => pause_execution self
  | Op_resume_execution => resume_execution self
  | Op_stop_execution => stop_execution self
  end.

(** In the words of the interface description: the states in which each
    operation may be called (its table of legal-operation preconditions).
    No method of [base.py] reads this table or checks the state; it serves
    to say which calls lie outside an operation's precondition. *)
Definition required_states (op : operation) : list State :=
  match op with
  | Op_set_temp _ _ _ => [READY; PAUSED]
  | Op_move_head_relative _ _ _ => [READY; PAUSED]
  | Op_move_head_absolute _ _ _ => [READY; PAUSED]
  | Op_home_head _ _ _ => [READY; PAUSED]
  | Op_execute_gcode _ => [READY]
  | Op_pause_execution => [EXECUTING]
  | Op_resume_execution => [PAUSED]
  | Op_stop_execution => [EXECUTING; PAUSED]
  end.

(** ** The wire format in the words of the interface description *)

Definition is_z_change (c : callback_call) : bool :=
  match c with
  | Call_z_change _ => true
  | _ => false
  end.

(** The event name of each kind of call. *)
Definition event_name (c : callback_call) : string :=
  match c with
  | Call_log _ _ => "log"
  | Call_state_change _ _ => "state_change"
  | Call_temp_update _ _ _ _ _ _ => "temp_update"
  | Call_position_update _ _ _ => "position_update"
  | Call_progress_update _ _ => "progress_update"
  | Call_z_change _ => "z_change"
  end.

(** The kind-specific fields as the event table lists them. *)
Definition spec_params (c : callback_call) : dict :=
  match c with
  | Call_log level message =>
      [ (str "level", PyInt level); (str "msg", PyStr message) ]
  | Call_state_change old new =>
      [ (str "old", PyInt (value old)); (str "new", PyInt (value new)) ]
  | Call_temp_update bc bt n1c n1t n2c n2t =>
      [ (str "bed_current", PyFloat bc); (str "bed_target", PyFloat bt);
        (str "nozzle1_current", PyFloat n1c);
        (str "nozzle1_target", PyFloat n1t);
        (str "nozzle2_current", PyFloat n2c);
        (str "nozzle2_target", PyFloat n2t) ]
  | Call_position_update x y z =>
      [ (str "x", PyFloat x); (str "y", PyFloat y); (str "z", PyFloat z) ]
  | Call_progress_update current_line total_lines =>
      [ (str "current_line", PyInt current_line);
        (str "total_lines", PyInt total_lines) ]
  | Call_z_change position => [ (str "position", PyFloat position) ]
  end.

(** The event object as the wire format writes it: the payload under
    [params], except for [z_change], whose payload lies flat. *)
Definition spec_event (c : callback_call) : dict :=
  (str "jsonrpc", PyStr (str "2.0")) ::
  (str "event", PyStr (str (event_name c))) ::
  (if is_z_change c then spec_params c
   else [ (str "params", PyDict (spec_params c)) ]).

(** The dict a method of [QueuedPrinterCallbacks] hands to [json.dumps]. *)
Definition published_event (c : callback_call) : dict :=
  ((str "event", PyStr (str (event_name c))) ::
   (if is_z_change c then spec_params c
    else [ (str "params", PyDict (spec_params c)) ]))
  ++ [ (str "jsonrpc", PyStr (str "2.0")) ].

(** The record of a state change, old and new state. *)
Definition state_change_record (e : State * State) : string :=
  json_dumps (PyDict (published_event (Call_state_change (fst e) (snd e)))).

(** ** Chains of state changes *)

(** The changes made by going through [new_states] from state [s]. *)
Fixpoint chain (s : State) (new_states : list State) : list (State * State) :=
  match new_states with
  | [] => []
  | n :: rest => (s, n) :: chain n rest
  end.

(** The state reached at the end of [new_states] from [s]. *)
Fixpoint last_state (s : State) (new_states : list State) : State :=
  match new_states with
  | [] => s
  | n :: rest => last_state n rest
  end.

(** The call that announces a change. *)
Definition state_change_call (e : State * State) : callback_call :=
  Call_state_change (fst e) (snd e).

(** The state changes among recorded calls. *)
Fixpoint state_changes (calls : list callback_call) : list (State * State) :=
  match calls with
  | [] => []
  | Call_state_change old new :: rest => (old, new) :: state_changes rest
  | _ :: rest => state_changes rest
  end.

(** ** The remaining abstract methods *)

(** Their bodies in [base.py] are [pass] as well; [_get_message_from_printer]
    so returns [None], its answer for no message. *)
Definition _connect (self : IPrinter)
  : IPrinter * status unit := (self, Returned tt).

Definition request_printer_temperature (self : IPrinter)
  : IPrinter * status unit := (self, Returned tt).

Definition request_printer_position (self : IPrinter)
  : IPrinter * status unit := (self, Returned tt).

Definition _get_message_from_printer (self : IPrinter)
  : IPrinter * status (option pystr) := (self, Returned None).

Definition _process_message_from_printer (self : IPrinter) (message : pystr)
  : IPrinter * status unit := (self, Returned tt).

(** ** Runs of callback calls *)

(** The calls of [calls] made on [self] one after the other; an exception
    from one of them, or one that does not come back, ends the run. *)
Fixpoint invoke_all {Self : Type} `{Callbacks Self}
    (self : Self) (calls : list callback_call) : Self * status unit :=
  match calls with
  | [] => (self, Returned tt)
  | c :: rest =>
      match invoke self c with
      | (self', Returned _) => invoke_all self' rest
      | (self', r) => (self', r)
      end
  end.

(** The text [QueuedPrinterCallbacks] puts on the queue for a call. *)
Definition record_of (c : callback_call) : string :=
  json_dumps (PyDict (published_event c)).

(** The free slots of a queue bounded to [m] records. *)
Definition room (m : nat) (q : Queue) : nat := (m - List.length (items q))%nat.

(** ** Printable text *)

(** The characters from the space to the tilde. *)
Definition printable_char (a : ascii) : bool :=
  ((32 <=? N_of_ascii a) && (N_of_ascii a <=? 126))%N.

Fixpoint printable (s : string) : bool :=
  match s with
  | EmptyString => true
  | String a r => printable_char a && printable r
  end.

(** A code point that [json.dumps] writes as it stands. *)
Definition plain_char (c : N) : bool :=
  ((32 <=? c) && (c <=? 126) && negb (c =? 34) && negb (c =? 92))%N.

(** The text of a [str] of ASCII characters. *)
Definition text_of (s : pystr) : string :=
  string_of_list_ascii (List.map ascii_of_N s).

(** * Properties *)

(** ** The State enumeration *)

(** C2. [State] has exactly the five members DISCONNECTED, READY, EXECUTING,
    PAUSED and ERROR, with the values 10, 20, 30, 40 and 100 in that order;
    no two members share a value, and the value of ERROR is strictly greater
    than the value of every other member. *)
Theorem State_members_values :
  (forall s : State, In s State_members) /\
  NoDup State_members /\
  List.length State_members = 5%nat /\
  List.map name State_members =
    ["DISCONNECTED"; "READY"; "EXECUTING"; "PAUSED"; "ERROR"]%string /\
  List.map value State_members = [10; 20; 30; 40; 100] /\
  NoDup (List.map value State_members) /\
  (forall s : State, s = ERROR \/ value s < value ERROR).
Proof.
  split; [ intros []; simpl; tauto | ].
  split.
  { unfold State_members.
    repeat (constructor; [ simpl; intuition discriminate | ]).
    constructor. }
  repeat (split; [ reflexivity | ]).
  split.
  { simpl. repeat (constructor; [ simpl; intuition discriminate | ]).
    constructor. }
  intros []; simpl; (now left) || (right; lia).
Qed.

Lemma State_of_value_value (s : State) : State_of_value (value s) = Some s.
Proof. destruct s; reflexivity. Qed.

Lemma State_eqb_eq (a b : State) : State_eqb a b = true <-> a = b.
Proof.
  destruct a, b; split; intros H;
    try reflexivity; try discriminate H.
Qed.

(** ** StateEncoder *)

(** C9. [StateEncoder.default] returns the name of any enum member it is
    given, as a string; for a member of [State] that is the member's name,
    so ERROR gives the string ERROR and not the integer 100. An object that
    is no enum member goes to [JSONEncoder.default], which raises. The
    record of a state change, in contrast, carries the integer values. *)
Theorem StateEncoder_default_name :
  (forall cls member val,
      StateEncoder_default (EnumMember cls member val)
      = Returned (PyStr (str member))) /\
  (forall s : State,
      StateEncoder_default (State_obj s) = Returned (PyStr (str (name s)))) /\
  StateEncoder_default (State_obj ERROR) = Returned (PyStr (str "ERROR")) /\
  StateEncoder_default (State_obj ERROR) <> Returned (PyInt 100) /\
  (forall v : pyval,
      is_Enum (Other v) = false /\
      StateEncoder_default (Other v) = JSONEncoder_default (Other v) /\
      StateEncoder_default (Other v) = Raised TypeError) /\
  (forall (self : QueuedPrinterCallbacks) (old new : State),
      QueuedPrinterCallbacks_state_change self old new
      = _publish self
          [ (str "event", PyStr (str "state_change"));
            (str "params", PyDict [ (str "old", PyInt (value old));
                                    (str "new", PyInt (value new)) ]) ] /\
      Returned (PyInt (value old)) <> StateEncoder_default (State_obj old)).
Proof.
  repeat split; try reflexivity; try discriminate.
Qed.

(** ** The queue *)

Lemma put_accepts (q : Queue) (obj : string) :
  accepts q = true -> put q obj = (enqueue q obj, Returned tt).
Proof.
  unfold accepts, put. intros H.
  apply andb_true_iff in H as [Hc Hf].
  apply negb_true_iff in Hc, Hf. now rewrite Hc, Hf.
Qed.

Lemma put_full (q : Queue) (obj : string) :
  closed q = false -> full q = true -> put q obj = (q, Blocked).
Proof. unfold put. intros -> ->. reflexivity. Qed.

Lemma put_closed (q : Queue) (obj : string) :
  closed q = true -> put q obj = (q, Raised ValueError).
Proof. unfold put. intros ->. reflexivity. Qed.

(** What [put] leaves in the queue, by the way it ended. *)
Lemma put_items (q : Queue) (obj : string) :
  match snd (put q obj) with
  | Returned _ => items (fst (put q obj)) = items q ++ [obj]
  | _ => fst (put q obj) = q
  end.
Proof. unfold put. destruct (closed q), (full q); reflexivity. Qed.

(** ** The queue-publishing callbacks *)

(** Every method builds its event and hands it to [_publish], which makes
    one [put] of the serialized event. *)
Lemma invoke_publishes (self : QueuedPrinterCallbacks) (c : callback_call) :
  invoke self c
  = let (q, r) :=
      put (_from_printer self) (json_dumps (PyDict (published_event c))) in
    ({| _from_printer := q |}, r).
Proof. destruct c; reflexivity. Qed.

Lemma published_event_perm (c : callback_call) :
  Permutation (published_event c) (spec_event c).
Proof.
  unfold published_event, spec_event.
  apply Permutation_sym, Permutation_cons_append.
Qed.

Lemma pystr_eqb_eq (a b : pystr) : pystr_eqb a b = true <-> a = b.
Proof.
  revert b; induction a as [|x a IH]; intros [|y b]; simpl;
    try (split; [discriminate | discriminate]); try tauto.
  rewrite andb_true_iff, N.eqb_eq, IH. split.
  - intros [-> ->]; reflexivity.
  - intros E; inversion E; auto.
Qed.

Ltac nodup_keys :=
  repeat (constructor; [ simpl; intuition discriminate | ]); constructor.

(** What a call leaves in the queue, by the way it ended. *)
Lemma invoke_items (self : QueuedPrinterCallbacks) (c : callback_call) :
  match snd (invoke self c) with
  | Returned _ =>
      items (_from_printer (fst (invoke self c)))
      = items (_from_printer self)
        ++ [json_dumps (PyDict (published_event c))]
  | _ => fst (invoke self c) = self
  end.
Proof.
  rewrite invoke_publishes. destruct self as [q]. cbn [_from_printer].
  unfold put. destruct (closed q), (full q); reflexivity.
Qed.



(** C7. A publish attempt of [QueuedPrinterCallbacks] never loses the event
    unnoticed, and a bounded, full queue does not make it fail: on a queue
    that is open and has room the record is enqueued and the call returns;
    on a closed queue the exception of [put] reaches the caller and nothing
    is enqueued; on an open queue that is bounded and full the call waits
    inside [put] for a free slot, with no time limit and without raising.
    In every case the queue holds the new record exactly when the call
    returned. *)
Theorem publish_outcomes (self : QueuedPrinterCallbacks) (event : dict) :
  let q := _from_printer self in
  let record :=
    json_dumps (PyDict (dict_set event (str "jsonrpc") (PyStr (str "2.0")))) in
  (accepts q = true ->
     _publish self event
     = ({| _from_printer := enqueue q record |}, Returned tt)) /\
  (closed q = true -> _publish self event = (self, Raised ValueError)) /\
  (closed q = false -> full q = true ->
     _publish self event = (self, Blocked)) /\
  match snd (_publish self event) with
  | Returned _ =>
      items (_from_printer (fst (_publish self event))) = items q ++ [record]
  | _ => fst (_publish self event) = self
  end.
Proof.
  destruct self as [q]. cbn zeta. unfold _publish. cbn [_from_printer].
  repeat split.
  - intros Hq. now rewrite (put_accepts _ _ Hq).
  - intros Hc. now rewrite (put_closed _ _ Hc).
  - intros Hc Hf. now rewrite (put_full _ _ Hc Hf).
  - unfold put. destruct (closed q), (full q); reflexivity.
Qed.

(** ** The placeholder callbacks *)

(** C8. A controller constructed without [printer_callbacks] holds a
    [PrinterCallbacks] object. Each of its six methods returns and leaves
    the object as it was, so a call on it emits nothing, and a state update
    of such a controller changes the state and nothing else. *)
Theorem default_callbacks_do_nothing
    (to_printer : Queue) (baud_rate port : option pyval) :
  let p := IPrinter__init__ to_printer None baud_rate port in
  _callbacks p = Obj PrinterCallbacks PrinterCallbacks__init__ /\
  (forall c : callback_call,
      obj_invoke (_callbacks p) c = (_callbacks p, Returned tt)) /\
  (forall self : PrinterCallbacks,
      (forall level message,
          PrinterCallbacks_log self level message = (self, Returned tt)) /\
      (forall old new,
          PrinterCallbacks_state_change self old new = (self, Returned tt)) /\
      (forall bc bt n1c n1t n2c n2t,
          PrinterCallbacks_temp_update self bc bt n1c n1t n2c n2t
          = (self, Returned tt)) /\
      (forall x y z,
          PrinterCallbacks_position_update self x y z
          = (self, Returned tt)) /\
      (forall current_line total_lines,
          PrinterCallbacks_progress_update self current_line total_lines
          = (self, Returned tt)) /\
      (forall new_z,
          PrinterCallbacks_z_change self new_z = (self, Returned tt))) /\
  (forall n : State,
      _update_state p n
      = ({| _state := n;
            _to_printer := to_printer;
            _callbacks := _callbacks p |}, Returned tt)).
Proof.
  cbn zeta. split; [ reflexivity | ].
  split; [ intros c; destruct c; reflexivity | ].
  split; [ intros self; repeat split | ].
  intros n; reflexivity.
Qed.

(** ** State updates *)

(** [_update_state] on any callbacks object: the state is the new one, and
    the object has received the one call [state_change(old, new)]. *)
Lemma update_state_any
    (s n : State) (to_printer : Queue) (cb : callbacks_obj) :
  _update_state
    {| _state := s; _to_printer := to_printer; _callbacks := cb |} n
  = ({| _state := n;
        _to_printer := to_printer;
        _callbacks := fst (obj_invoke cb (Call_state_change s n)) |},
     snd (obj_invoke cb (Call_state_change s n))).
Proof.
  unfold _update_state. cbn [_state _to_printer _callbacks].
  destruct (obj_invoke cb (Call_state_change s n)); reflexivity.
Qed.

Lemma update_state_spy
    (Inner : Type) `{Callbacks Inner}
    (s n : State) (to_printer : Queue) (sp : Spy Inner) :
  _update_state
    {| _state := s;
       _to_printer := to_printer;
       _callbacks := Obj (Spy Inner) sp |} n
  = ({| _state := n;
        _to_printer := to_printer;
        _callbacks :=
          Obj (Spy Inner)
            {| seen := seen sp ++ [Call_state_change s n];
               inner := fst (invoke (inner sp) (Call_state_change s n)) |} |},
     snd (invoke (inner sp) (Call_state_change s n))).
Proof.
  rewrite update_state_any. unfold obj_invoke.
  cbn [obj_class obj_methods obj_self invoke state_change Spy_methods].
  unfold spy_call. cbn [invoke].
  destruct (state_change (inner sp) s n); reflexivity.
Qed.

Lemma update_state_queued
    (s n : State) (to_printer q : Queue) :
  accepts q = true ->
  _update_state
    {| _state := s;
       _to_printer := to_printer;
       _callbacks :=
         Obj QueuedPrinterCallbacks {| _from_printer := q |} |} n
  = ({| _state := n;
        _to_printer := to_printer;
        _callbacks :=
          Obj QueuedPrinterCallbacks
            {| _from_printer := enqueue q (state_change_record (s, n)) |} |},
     Returned tt).
Proof.
  intros Hq. rewrite update_state_any. unfold obj_invoke.
  cbn [obj_class obj_methods obj_self].
  rewrite invoke_publishes. cbn [_from_printer].
  rewrite (put_accepts _ _ Hq). reflexivity.
Qed.

(** C4. Whatever the current state [s] and the new state [n],
    [_update_state(n)] sets the state to [n] and makes exactly one call on
    the callbacks object, [state_change(s, n)]; it checks nothing about
    the pair, and ends the way that one call ends. *)
Theorem update_state_unconditional
    (Inner : Type) `{Callbacks Inner}
    (s n : State) (to_printer : Queue) (sp : Spy Inner) (cb : callbacks_obj) :
  let p := {| _state := s;
              _to_printer := to_printer;
              _callbacks := Obj (Spy Inner) sp |} in
  _state (fst (_update_state p n)) = n /\
  _callbacks (fst (_update_state p n))
  = Obj (Spy Inner)
      {| seen := seen sp ++ [Call_state_change s n];
         inner := fst (invoke (inner sp) (Call_state_change s n)) |} /\
  snd (_update_state p n) = snd (invoke (inner sp) (Call_state_change s n)) /\
  _update_state
    {| _state := s; _to_printer := to_printer; _callbacks := cb |} n
  = ({| _state := n;
        _to_printer := to_printer;
        _callbacks := fst (obj_invoke cb (Call_state_change s n)) |},
     snd (obj_invoke cb (Call_state_change s n))) /\
  _update_state
    {| _state := s;
       _to_printer := to_printer;
       _callbacks := Obj PrinterCallbacks PrinterCallbacks__init__ |} n
  = ({| _state := n;
        _to_printer := to_printer;
        _callbacks := Obj PrinterCallbacks PrinterCallbacks__init__ |},
     Returned tt).
Proof.
  cbn zeta. rewrite update_state_spy. cbn [fst snd _state _callbacks].
  repeat split; try reflexivity.
  apply update_state_any.
Qed.

(** C10. [_update_state(s)] in state [s] still makes the call
    [state_change(s, s)]: the observer sees one more call with old and new
    both [s], and a queue with room receives one more record, whose [old]
    and [new] are both the value of [s]. *)
Theorem self_transition_fires
    (Inner : Type) `{Callbacks Inner}
    (s : State) (to_printer q : Queue) (sp : Spy Inner) :
  accepts q = true ->
  _callbacks
    (fst (_update_state
            {| _state := s;
               _to_printer := to_printer;
               _callbacks := Obj (Spy Inner) sp |} s))
  = Obj (Spy Inner)
      {| seen := seen sp ++ [Call_state_change s s];
         inner := fst (invoke (inner sp) (Call_state_change s s)) |} /\
  _update_state
    {| _state := s;
       _to_printer := to_printer;
       _callbacks :=
         Obj QueuedPrinterCallbacks {| _from_printer := q |} |} s
  = ({| _state := s;
        _to_printer := to_printer;
        _callbacks :=
          Obj QueuedPrinterCallbacks
            {| _from_printer := enqueue q (state_change_record (s, s)) |} |},
     Returned tt) /\
  state_change_record (s, s)
  = json_dumps
      (PyDict
         [ (str "event", PyStr (str "state_change"));
           (str "params", PyDict [ (str "old", PyInt (value s));
                                   (str "new", PyInt (value s)) ]);
           (str "jsonrpc", PyStr (str "2.0")) ]).
Proof.
  intros Hq. rewrite update_state_spy, (update_state_queued _ _ _ _ Hq).
  repeat split.
Qed.

(** ** Sequences of state updates *)

Lemma state_changes_calls (l : list (State * State)) :
  state_changes (List.map state_change_call l) = l.
Proof.
  induction l as [|[o n] l IH]; simpl; [ reflexivity | now rewrite IH ].
Qed.

(** In a chain the first change starts from the initial state and every
    later one starts where the one before it ended. *)
Lemma chain_links (ns : list State) :
  forall s : State,
    match nth_error (chain s ns) 0 with
    | Some (o, _) => o = s
    | None => ns = []
    end /\
    forall j : nat,
      match nth_error (chain s ns) (S j) with
      | Some (o, _) =>
          exists e, nth_error (chain s ns) j = Some e /\ o = snd e
      | None => True
      end.
Proof.
  induction ns as [|n rest IH]; intros s.
  - split; [ reflexivity | intros j; exact I ].
  - split; [ reflexivity | ].
    intros [|j]; simpl.
    + destruct (IH n) as [H0 _]. simpl in H0.
      destruct (chain n rest) as [|[o n'] l]; [ exact I | ].
      exists (s, n). split; [ reflexivity | exact H0 ].
    + destruct (IH n) as [_ HS]. apply HS.
Qed.

(** A run of updates watched by the observer: the calls up to the first one
    that did not return are noted, in order, and they are the chain from the
    starting state. *)
Lemma update_states_spy
    (Inner : Type) `{Callbacks Inner} (to_printer : Queue)
    (ns : list State) :
  forall (s : State) (sp : Spy Inner),
  exists (k : nat) (i : Inner),
    fst (update_states
           {| _state := s;
              _to_printer := to_printer;
              _callbacks := Obj (Spy Inner) sp |} ns)
    = {| _state := last_state s (firstn k ns);
         _to_printer := to_printer;
         _callbacks :=
           Obj (Spy Inner)
             {| seen :=
                  seen sp
                  ++ List.map state_change_call (chain s (firstn k ns));
                inner := i |} |} /\
    (k <= List.length ns)%nat /\
    match snd (update_states
                 {| _state := s;
                    _to_printer := to_printer;
                    _callbacks := Obj (Spy Inner) sp |} ns) with
    | Returned _ => k = List.length ns
    | _ => (0 < k)%nat
    end.
Proof.
  induction ns as [|n rest IH]; intros s sp.
  - exists 0%nat, (inner sp). simpl. rewrite app_nil_r.
    destruct sp; repeat split; lia.
  - cbn [update_states]. rewrite update_state_spy.
    destruct (snd (invoke (inner sp) (Call_state_change s n))) as [u| e |].
    + destruct (IH n
                  {| seen := seen sp ++ [Call_state_change s n];
                     inner :=
                       fst (invoke (inner sp) (Call_state_change s n)) |})
        as (k & i & Hfst & Hk & Hr).
      exists (S k), i. rewrite Hfst. cbn [seen firstn chain last_state map].
      rewrite <- app_assoc. split; [ reflexivity | ].
      split; [ simpl; lia | ].
      destruct (snd (update_states _ rest)); simpl; lia.
    + exists 1%nat, (fst (invoke (inner sp) (Call_state_change s n))).
      cbn. repeat split; lia.
    + exists 1%nat, (fst (invoke (inner sp) (Call_state_change s n))).
      cbn. repeat split; lia.
Qed.

(** A callbacks object whose calls all return lets the whole run through. *)
Lemma update_states_returns
    (Inner : Type) `{Callbacks Inner} (to_printer : Queue)
    (ns : list State) :
  (forall (x : Inner) (c : callback_call), snd (invoke x c) = Returned tt) ->
  forall (s : State) (sp : Spy Inner),
    snd (update_states
           {| _state := s;
              _to_printer := to_printer;
              _callbacks := Obj (Spy Inner) sp |} ns) = Returned tt.
Proof.
  intros Hret. induction ns as [|n rest IH]; intros s sp.
  - reflexivity.
  - cbn [update_states]. rewrite update_state_spy, Hret. apply IH.
Qed.

(** On a queue without bound the records of a run are the chain, in order. *)
Lemma update_states_queued (to_printer : Queue) (ns : list State) :
  forall (s : State) (l : list string),
    update_states
      {| _state := s;
         _to_printer := to_printer;
         _callbacks :=
           Obj QueuedPrinterCallbacks
             {| _from_printer :=
                  {| maxsize := None; closed := false; items := l |} |} |} ns
    = ({| _state := last_state s ns;
          _to_printer := to_printer;
          _callbacks :=
            Obj QueuedPrinterCallbacks
              {| _from_printer :=
                   {| maxsize := None;
                      closed := false;
                      items :=
                        l ++ List.map state_change_record (chain s ns) |} |} |},
       Returned tt).
Proof.
  induction ns as [|n rest IH]; intros s l.
  - simpl. now rewrite app_nil_r.
  - cbn [update_states].
    rewrite update_state_queued by reflexivity.
    unfold enqueue. cbn [maxsize closed items].
    rewrite IH. cbn [chain map last_state]. now rewrite <- app_assoc.
Qed.

(** C5. Any sequence of [_update_state] calls on a freshly constructed
    controller makes [state_change] calls that form a chain: the first has
    DISCONNECTED, value 10, as its old state, and every later one has as its
    old state the new state of the call before it. The sequence covers all
    the updates when the run returned, and the updates up to the first call
    that raised or did not come back otherwise. *)
Theorem state_changes_form_chain
    (Inner : Type) `{Callbacks Inner} (i0 : Inner)
    (to_printer : Queue) (baud_rate port : option pyval)
    (new_states : list State) :
  let p :=
    IPrinter__init__ to_printer
      (Some (Obj (Spy Inner) {| seen := []; inner := i0 |}))
      baud_rate port in
  exists (k : nat) (sp : Spy Inner),
    _callbacks (fst (update_states p new_states)) = Obj (Spy Inner) sp /\
    seen sp = List.map state_change_call (state_changes (seen sp)) /\
    state_changes (seen sp) = chain DISCONNECTED (firstn k new_states) /\
    (k <= List.length new_states)%nat /\
    match snd (update_states p new_states) with
    | Returned _ => k = List.length new_states
    | _ => (0 < k)%nat
    end /\
    match nth_error (state_changes (seen sp)) 0 with
    | Some (o, _) => o = DISCONNECTED /\ value o = 10
    | None => k = 0%nat \/ new_states = []
    end /\
    forall j : nat,
      match nth_error (state_changes (seen sp)) (S j) with
      | Some (o, _) =>
          exists e,
            nth_error (state_changes (seen sp)) j = Some e /\ o = snd e
      | None => True
      end.
Proof.
  cbn zeta. unfold IPrinter__init__.
  destruct (update_states_spy Inner to_printer new_states DISCONNECTED
              {| seen := []; inner := i0 |}) as (k & i & Hfst & Hk & Hr).
  exists k.
  exists {| seen :=
              List.map state_change_call
                (chain DISCONNECTED (firstn k new_states));
            inner := i |}.
  rewrite Hfst. cbn [_callbacks seen app].
  rewrite state_changes_calls.
  split; [ reflexivity | ].
  split; [ reflexivity | ].
  split; [ reflexivity | ].
  split; [ exact Hk | ].
  split; [ exact Hr | ].
  destruct (chain_links (firstn k new_states) DISCONNECTED) as [H0 HS].
  split; [ | exact HS ].
  destruct (nth_error (chain DISCONNECTED (firstn k new_states)) 0)
    as [[o n]|].
  - subst o. split; reflexivity.
  - destruct k; [ now left | right ].
    destruct new_states; [ reflexivity | discriminate H0 ].
Qed.

(** ** The abstract operations *)

(** The operations as [base.py] has them: in every state each one returns
    and leaves the controller as it was. *)
Lemma abstract_operations_pass (self : IPrinter) :
  (forall bed nozzle1 nozzle2,
      set_temp self bed nozzle1 nozzle2 = (self, Returned tt)) /\
  (forall x y z, move_head_relative self x y z = (self, Returned tt)) /\
  (forall x y z, move_head_absolute self x y z = (self, Returned tt)) /\
  (forall x y z, home_head self x y z = (self, Returned tt)) /\
  (forall gcode_commands,
      execute_gcode self gcode_commands = (self, Returned tt)) /\
  pause_execution self = (self, Returned tt) /\
  resume_execution self = (self, Returned tt) /\
  stop_execution self = (self, Returned tt) /\
  emergency_stop self = (self, Returned tt).
Proof. repeat split. Qed.

(** C6. Each state-gated operation ([set_temp], [move_head_relative],
    [move_head_absolute], [home_head], [execute_gcode], [pause_execution],
    [resume_execution], [stop_execution]) as [base.py] defines it returns in
    every state of the controller, and so also in a state outside the
    operation's precondition: it raises no [NotReadyException], and it
    leaves the controller as it was, the state and the callbacks object
    included, so that nothing is sent and no callback is made. *)
Theorem abstract_operations_never_reject
    (op : operation) (self : IPrinter) :
  call_operation op self = (self, Returned tt) /\
  snd (call_operation op self) <> Raised NotReadyException /\
  _state (fst (call_operation op self)) = _state self /\
  _callbacks (fst (call_operation op self)) = _callbacks self /\
  _to_printer (fst (call_operation op self)) = _to_printer self.
Proof.
  assert (E : call_operation op self = (self, Returned tt))
    by (destruct op; reflexivity).
  rewrite E. repeat split. discriminate.
Qed.

(** * Further properties *)

(** ** Lookup of a state by its value *)

(** [State(v)] finds a member exactly when [v] is that member's value: the
    integers of a state change record lead back to the states they came
    from, and no other integer names a state. *)
Theorem State_of_value_iff (v : Z) (s : State) :
  State_of_value v = Some s <-> value s = v.
Proof.
  split.
  - unfold State_of_value. intros H.
    apply find_some in H as [_ H]. now apply Z.eqb_eq in H.
  - intros <-. apply State_of_value_value.
Qed.

(** No two members of [State] have the same name, so the string
    [StateEncoder.default] returns for a member tells which member it was. *)
Theorem StateEncoder_default_injective (a b : State) :
  StateEncoder_default (State_obj a) = StateEncoder_default (State_obj b) ->
  a = b.
Proof.
  destruct a, b; intros H; try reflexivity; discriminate H.
Qed.

(** ** Dictionaries *)

Lemma pystr_eqb_refl (k : pystr) : pystr_eqb k k = true.
Proof. now apply pystr_eqb_eq. Qed.

Lemma pystr_eqb_neq (a b : pystr) : a <> b -> pystr_eqb a b = false.
Proof.
  intros Hne. destruct (pystr_eqb a b) eqn:E; [ | reflexivity ].
  apply pystr_eqb_eq in E. contradiction.
Qed.

Lemma dict_get_set_same (d : dict) (k : pystr) (v : pyval) :
  dict_get (dict_set d k v) k = Some v.
Proof.
  induction d as [|[k' v'] d IH]; simpl.
  - now rewrite pystr_eqb_refl.
  - destruct (pystr_eqb k' k) eqn:E; simpl; rewrite E; [ reflexivity | exact IH ].
Qed.

Lemma dict_get_set_other (d : dict) (k k0 : pystr) (v : pyval) :
  k0 <> k -> dict_get (dict_set d k v) k0 = dict_get d k0.
Proof.
  intros Hne. induction d as [|[k' v'] d IH]; simpl.
  - rewrite pystr_eqb_neq; [ reflexivity | congruence ].
  - destruct (pystr_eqb k' k) eqn:E; simpl.
    + apply pystr_eqb_eq in E. subst k'.
      rewrite pystr_eqb_neq; [ | congruence ].
      reflexivity.
    + now rewrite IH.
Qed.

Lemma dict_get_None_keys (d : dict) (k : pystr) :
  dict_get d k = None <-> ~ In k (keys d).
Proof.
  induction d as [|[k' v'] d IH]; simpl.
  - tauto.
  - destruct (pystr_eqb k' k) eqn:E.
    + apply pystr_eqb_eq in E. split; [ discriminate | tauto ].
    + assert (k' <> k)
        by (intros ->; rewrite pystr_eqb_refl in E; discriminate).
      rewrite IH. tauto.
Qed.

Lemma dict_set_absent (d : dict) (k : pystr) (v : pyval) :
  dict_get d k = None -> dict_set d k v = d ++ [(k, v)].
Proof.
  induction d as [|[k' v'] d IH]; simpl; [ reflexivity | ].
  destruct (pystr_eqb k' k); [ discriminate | ].
  intros H. now rewrite IH.
Qed.

Lemma dict_set_present_keys (d : dict) (k : pystr) (v : pyval) :
  dict_get d k <> None -> keys (dict_set d k v) = keys d.
Proof.
  induction d as [|[k' v'] d IH]; simpl; [ congruence | ].
  destruct (pystr_eqb k' k); simpl; [ reflexivity | ].
  intros H. now rewrite IH.
Qed.

Lemma dict_set_NoDup (d : dict) (k : pystr) (v : pyval) :
  NoDup (keys d) -> NoDup (keys (dict_set d k v)).
Proof.
  intros Hnd. destruct (dict_get d k) eqn:E.
  - rewrite dict_set_present_keys; [ exact Hnd | congruence ].
  - rewrite (dict_set_absent _ _ _ E). unfold keys. rewrite map_app.
    apply dict_get_None_keys in E.
    apply NoDup_app; [ exact Hnd | repeat constructor; simpl; tauto | ].
    simpl. intros x Hin [<- | []]. exact (E Hin).
Qed.

(** [_publish] on any event: the object that is serialized has [jsonrpc]
    set to the string 2.0, also when the event came with a [jsonrpc] entry
    of its own; every other entry is the event's, the keys stay distinct and
    keep their order, a new [jsonrpc] key going last. *)
Theorem publish_sets_jsonrpc (self : QueuedPrinterCallbacks) (event : dict) :
  exists d : dict,
    _publish self event
    = (let (q, r) := put (_from_printer self) (json_dumps (PyDict d)) in
       ({| _from_printer := q |}, r)) /\
    dict_get d (str "jsonrpc") = Some (PyStr (str "2.0")) /\
    (forall k : pystr,
        k <> str "jsonrpc" -> dict_get d k = dict_get event k) /\
    (NoDup (keys event) -> NoDup (keys d)) /\
    (dict_get event (str "jsonrpc") = None ->
       d = event ++ [(str "jsonrpc", PyStr (str "2.0"))]) /\
    (dict_get event (str "jsonrpc") <> None -> keys d = keys event).
Proof.
  exists (dict_set event (str "jsonrpc") (PyStr (str "2.0"))).
  split; [ reflexivity | ].
  split; [ apply dict_get_set_same | ].
  split; [ intros k Hk; now apply dict_get_set_other | ].
  split; [ apply dict_set_NoDup | ].
  split; [ apply dict_set_absent | apply dict_set_present_keys ].
Qed.

(** ** Runs of calls on the queue-publishing callbacks *)

Lemma invoke_queued (q : Queue) (c : callback_call) :
  invoke {| _from_printer := q |} c
  = (if closed q then ({| _from_printer := q |}, Raised ValueError)
     else if full q then ({| _from_printer := q |}, Blocked)
     else ({| _from_printer := enqueue q (record_of c) |}, Returned tt)).
Proof.
  rewrite invoke_publishes. cbn [_from_printer]. unfold put, record_of.
  destruct (closed q), (full q); reflexivity.
Qed.

Lemma queue_eta (q : Queue) :
  {| maxsize := maxsize q; closed := closed q; items := items q ++ [] |} = q.
Proof. rewrite app_nil_r. destruct q; reflexivity. Qed.

Lemma queue_eta_closed (q : Queue) (b : bool) :
  closed q = b ->
  {| maxsize := maxsize q; closed := b; items := items q ++ [] |} = q.
Proof. intros <-. apply queue_eta. Qed.

Lemma queue_eta_fields (q : Queue) (m : option nat) (b : bool) :
  maxsize q = m -> closed q = b ->
  {| maxsize := m; closed := b; items := items q ++ [] |} = q.
Proof. intros <- <-. apply queue_eta. Qed.

(** Whatever the state of the queue, a run of calls leaves the records that
    were in it in place and in order, adds behind them the records of the
    calls made so far, one per call and in call order, and changes neither
    the bound nor the closed flag. The run stops early only by the
    exception of a closed queue, before any record, or by waiting at a full
    queue. *)
Theorem invoke_all_appends (calls : list callback_call) :
  forall q : Queue,
  exists k : nat,
    (k <= List.length calls)%nat /\
    _from_printer (fst (invoke_all {| _from_printer := q |} calls))
    = {| maxsize := maxsize q;
         closed := closed q;
         items := items q ++ List.map record_of (firstn k calls) |} /\
    match snd (invoke_all {| _from_printer := q |} calls) with
    | Returned _ => k = List.length calls
    | Raised e => e = ValueError /\ closed q = true /\ k = 0%nat
    | Blocked =>
        closed q = false /\
        (k < List.length calls)%nat /\
        full (_from_printer (fst (invoke_all {| _from_printer := q |} calls)))
        = true
    end.
Proof.
  induction calls as [|c rest IH]; intros q.
  - exists 0%nat. cbn. rewrite queue_eta. repeat split; lia.
  - cbn [invoke_all]. rewrite invoke_queued.
    destruct (closed q) eqn:Hc; [ | destruct (full q) eqn:Hf ].
    + exists 0%nat. cbn. rewrite (queue_eta_closed q true Hc).
      repeat split; lia.
    + exists 0%nat. cbn [fst snd firstn map _from_printer length].
      rewrite (queue_eta_closed q false Hc).
      repeat split; try (simpl; lia); exact Hf.
    + destruct (IH (enqueue q (record_of c))) as (k & Hk & Hq & Hr).
      exists (S k). split; [ simpl; lia | ].
      split.
      * rewrite Hq. cbn [enqueue maxsize closed items firstn map].
        now rewrite Hc, <- app_assoc.
      * destruct (snd (invoke_all _ rest)) as [u|e|].
        -- simpl; lia.
        -- destruct Hr as (_ & Hc' & _). cbn in Hc'. congruence.
        -- destruct Hr as (_ & Hlt & Hfull).
           repeat split; [ simpl; lia | exact Hfull ].
Qed.

(** On an open queue without bound every run of calls returns, and the
    queue then holds, behind what it held, one record per call in call
    order. *)
Theorem invoke_all_unbounded (calls : list callback_call) :
  forall l : list string,
    invoke_all
      {| _from_printer :=
           {| maxsize := None; closed := false; items := l |} |} calls
    = ({| _from_printer :=
            {| maxsize := None;
               closed := false;
               items := l ++ List.map record_of calls |} |},
       Returned tt).
Proof.
  induction calls as [|c rest IH]; intros l.
  - cbn. now rewrite app_nil_r.
  - cbn [invoke_all]. rewrite invoke_queued. cbn [closed full maxsize].
    unfold enqueue. cbn [maxsize closed items].
    rewrite IH. cbn [map]. now rewrite <- app_assoc.
Qed.

Lemma room_enqueue (m : nat) (q : Queue) (x : string) :
  full q = false -> maxsize q = Some m ->
  room m q = S (room m (enqueue q x)).
Proof.
  unfold full, room. intros Hf Hm. rewrite Hm in Hf.
  apply Nat.leb_gt in Hf. cbn [enqueue items].
  rewrite length_app. simpl. lia.
Qed.

(** On an open queue bounded to [m] records a run of calls fills the free
    slots and no more: it returns when the calls fit, and otherwise waits
    at the first call that finds the queue full, the records of the calls
    before it being in the queue. *)
Theorem invoke_all_bounded (m : nat) (calls : list callback_call) :
  forall q : Queue,
    closed q = false ->
    maxsize q = Some m ->
    invoke_all {| _from_printer := q |} calls
    = ({| _from_printer :=
            {| maxsize := Some m;
               closed := false;
               items :=
                 items q ++ List.map record_of (firstn (room m q) calls) |} |},
       if (List.length calls <=? room m q)%nat then Returned tt else Blocked).
Proof.
  induction calls as [|c rest IH]; intros q Hc Hm.
  - cbn. rewrite firstn_nil. cbn.
    now rewrite (queue_eta_fields q (Some m) false Hm Hc).
  - cbn [invoke_all]. rewrite invoke_queued, Hc.
    destruct (full q) eqn:Hf.
    + assert (Hr : room m q = 0%nat).
      { unfold full in Hf. rewrite Hm in Hf. apply Nat.leb_le in Hf.
        unfold room. lia. }
      rewrite Hr. cbn.
      now rewrite (queue_eta_fields q (Some m) false Hm Hc).
    + rewrite (IH (enqueue q (record_of c)) Hc Hm).
      rewrite (room_enqueue m q (record_of c) Hf Hm).
      cbn [enqueue items firstn map length Nat.leb].
      now rewrite <- app_assoc.
Qed.

(** ** State updates when the event cannot be published *)

(** [_update_state] stores the new state before it publishes the change:
    on a queue that does not take the record at once, closed or full, the
    controller is in the new state all the same, while the queue holds no
    record of the change and the call has raised or is waiting. *)
Theorem update_state_unpublished
    (s n : State) (to_printer q : Queue) :
  accepts q = false ->
  _update_state
    {| _state := s;
       _to_printer := to_printer;
       _callbacks :=
         Obj QueuedPrinterCallbacks {| _from_printer := q |} |} n
  = ({| _state := n;
        _to_printer := to_printer;
        _callbacks :=
          Obj QueuedPrinterCallbacks {| _from_printer := q |} |},
     if closed q then Raised ValueError else Blocked).
Proof.
  intros Hq. rewrite update_state_any. unfold obj_invoke.
  cbn [obj_class obj_methods obj_self].
  rewrite invoke_queued.
  unfold accepts in Hq.
  destruct (closed q); [ reflexivity | ].
  destruct (full q); [ reflexivity | discriminate Hq ].
Qed.

(** ** Where a run of updates leaves the controller *)

Lemma update_states_cons_returned
    (p p1 : IPrinter) (n : State) (u : unit) (l : list State) :
  _update_state p n = (p1, Returned u) ->
  update_states p (n :: l) = update_states p1 l.
Proof. intros E. cbn [update_states]. now rewrite E. Qed.

Lemma update_states_cons_stopped
    (p p1 : IPrinter) (n : State) (r : status unit) (l : list State) :
  _update_state p n = (p1, r) ->
  (forall u, r <> Returned u) ->
  update_states p (n :: l) = (p1, r).
Proof.
  intros E Hr. cbn [update_states]. rewrite E.
  destruct r as [u| |]; [ now destruct (Hr u) | reflexivity | reflexivity ].
Qed.

(** With any callbacks object, a run of updates leaves the controller in
    the state of the last update it started, and starts no update after one
    whose callback raised or did not come back. There is a number [k] of
    updates started: the run over the first [k] states is the whole run,
    every shorter run returned, and the controller ends in the [k]-th state.
    [k] is the length of the list when the run returned; otherwise the
    [k]-th update is the first, and only, one whose callback did not
    return. The command queue is never touched. *)
Theorem update_states_last_state (new_states : list State) :
  forall p : IPrinter,
  exists k : nat,
    (k <= List.length new_states)%nat /\
    _state (fst (update_states p new_states))
    = last_state (_state p) (firstn k new_states) /\
    _to_printer (fst (update_states p new_states)) = _to_printer p /\
    update_states p (firstn k new_states) = update_states p new_states /\
    (forall j : nat,
        (j < k)%nat ->
        snd (update_states p (firstn j new_states)) = Returned tt) /\
    match snd (update_states p new_states) with
    | Returned _ => k = List.length new_states
    | _ => (0 < k)%nat
    end.
Proof.
  induction new_states as [|n rest IH]; intros p.
  - exists 0%nat. cbn. repeat split; lia.
  - destruct p as [s tp cb].
    pose proof (update_state_any s n tp cb) as E.
    destruct (snd (obj_invoke cb (Call_state_change s n))) as [u|e|] eqn:Er.
    + destruct (IH {| _state := n;
                      _to_printer := tp;
                      _callbacks :=
                        fst (obj_invoke cb (Call_state_change s n)) |})
        as (k & Hk & Hs & Ht & Hrun & Hpre & Hr).
      exists (S k). cbn [firstn].
      rewrite !(update_states_cons_returned _ _ _ _ _ E).
      split; [ simpl; lia | ].
      split; [ exact Hs | ].
      split; [ exact Ht | ].
      split; [ exact Hrun | ].
      split.
      * intros [|j] Hj; [ reflexivity | ].
        cbn [firstn]. rewrite (update_states_cons_returned _ _ _ _ _ E).
        apply Hpre. lia.
      * destruct (snd (update_states _ rest)); simpl; lia.
    + exists 1%nat. cbn [firstn].
      rewrite !(update_states_cons_stopped _ _ _ _ _ E) by discriminate.
      cbn [fst snd _state _to_printer last_state List.length].
      repeat (split; [ reflexivity || lia | ]).
      split; [ intros [|j] Hj; [ reflexivity | lia ] | lia ].
    + exists 1%nat. cbn [firstn].
      rewrite !(update_states_cons_stopped _ _ _ _ _ E) by discriminate.
      cbn [fst snd _state _to_printer last_state List.length].
      repeat (split; [ reflexivity || lia | ]).
      split; [ intros [|j] Hj; [ reflexivity | lia ] | lia ].
Qed.

(** A controller constructed without callbacks goes through every run of
    updates: the run returns, the state is the last one asked for, and the
    placeholder object is as it was. *)
Theorem update_states_default_callbacks
    (to_printer : Queue) (baud_rate port : option pyval)
    (new_states : list State) :
  update_states (IPrinter__init__ to_printer None baud_rate port) new_states
  = ({| _state := last_state DISCONNECTED new_states;
        _to_printer := to_printer;
        _callbacks := Obj PrinterCallbacks PrinterCallbacks__init__ |},
     Returned tt).
Proof.
  unfold IPrinter__init__. generalize DISCONNECTED.
  induction new_states as [|n rest IH]; intros s.
  - reflexivity.
  - cbn [update_states last_state]. rewrite <- IH. reflexivity.
Qed.

(** ** The text of the records *)

Lemma printable_app (a b : string) :
  printable (a ++ b)%string = printable a && printable b.
Proof.
  induction a as [|x a IH]; simpl; [ reflexivity | ].
  now rewrite IH, andb_assoc.
Qed.

Lemma printable_concat (sep : string) (l : list string) :
  printable sep = true ->
  Forall (fun s => printable s = true) l ->
  printable (String.concat sep l) = true.
Proof.
  intros Hsep Hl. induction Hl as [|x l Hx Hl IH]; [ reflexivity | ].
  simpl. destruct l as [|y l]; [ exact Hx | ].
  now rewrite !printable_app, Hx, Hsep, IH.
Qed.

Lemma hex_digit_printable (n : N) : printable_char (hex_digit n) = true.
Proof.
  destruct n as [|p]; [ reflexivity | ].
  do 4 (destruct p as [p|p|]; try reflexivity).
Qed.

Lemma u_escape_printable (n : N) : printable (u_escape n) = true.
Proof.
  unfold u_escape. cbn [printable].
  now rewrite !hex_digit_printable.
Qed.

Lemma escape_char_printable (c : N) : printable (escape_char c) = true.
Proof.
  unfold escape_char.
  repeat match goal with
         | |- context [ (c =? ?k)%N ] => destruct (c =? k)%N; [ reflexivity | ]
         end.
  destruct ((32 <=? c) && (c <=? 126))%N eqn:E.
  - cbn [printable]. unfold printable_char.
    rewrite N_ascii_embedding; [ now rewrite E | ].
    apply andb_true_iff in E as [_ E]. apply N.leb_le in E. lia.
  - destruct (c <? 65536)%N.
    + apply u_escape_printable.
    + now rewrite printable_app, !u_escape_printable.
Qed.

Lemma encode_basestring_ascii_printable (s : pystr) :
  printable (encode_basestring_ascii s) = true.
Proof.
  unfold encode_basestring_ascii. rewrite !printable_app.
  rewrite printable_concat; [ reflexivity | reflexivity | ].
  induction s as [|c s IH]; constructor;
    [ apply escape_char_printable | exact IH ].
Qed.

Lemma uint_printable (d : Decimal.uint) :
  printable (NilEmpty.string_of_uint d) = true.
Proof. induction d; simpl; auto. Qed.

Lemma int_repr_printable (z : Z) : printable (int_repr z) = true.
Proof.
  unfold int_repr.
  destruct (Z.to_int z) as [d|d]; cbn [NilZero.string_of_int].
  - unfold NilZero.string_of_uint.
    destruct d; try reflexivity; apply uint_printable.
  - cbn [printable]. unfold NilZero.string_of_uint.
    destruct d; try reflexivity; apply uint_printable.
Qed.

Lemma json_dumps_PyDict (d : dict) :
  json_dumps (PyDict d)
  = ("{" ++
     String.concat ", "
       (List.map
          (fun kv =>
             encode_basestring_ascii (fst kv) ++ ": " ++ json_dumps (snd kv))
          d)
     ++ "}")%string.
Proof.
  cbn [json_dumps]. do 3 f_equal.
  induction d as [|[k x] d IH]; [ reflexivity | ].
  cbn [map fst snd]. now rewrite <- IH.
Qed.

(** Induction on a value that goes through the entries of a dictionary. *)
Lemma pyval_nested_ind (P : pyval -> Prop) :
  (forall z, P (PyInt z)) ->
  (forall f, P (PyFloat f)) ->
  (forall s, P (PyStr s)) ->
  (forall d, Forall (fun kv => P (snd kv)) d -> P (PyDict d)) ->
  forall v, P v.
Proof.
  intros Hint Hfloat Hstr Hdict.
  fix IH 1. intros [z|f|s|d].
  - apply Hint.
  - apply Hfloat.
  - apply Hstr.
  - apply Hdict.
    induction d as [|[k x] d IHd]; constructor; [ apply IH | exact IHd ].
Qed.

(** Whatever the arguments of a call, the text [json.dumps] produces, and
    with it every record put on the queue, consists of printable ASCII
    characters only, provided the text written for a float does: a message
    with line breaks, quotes or letters outside ASCII never puts a raw
    control or non-ASCII character into a record. *)
Theorem json_dumps_printable :
  (forall f : float, printable (float_repr f) = true) ->
  (forall v : pyval, printable (json_dumps v) = true) /\
  (forall c : callback_call, printable (record_of c) = true).
Proof.
  intros Hfloat.
  assert (Hv : forall v : pyval, printable (json_dumps v) = true).
  { induction v as [z|f|s|d IHd] using pyval_nested_ind.
    - apply int_repr_printable.
    - apply Hfloat.
    - apply encode_basestring_ascii_printable.
    - rewrite json_dumps_PyDict, !printable_app.
      rewrite printable_concat; [ reflexivity | reflexivity | ].
      induction IHd as [|[k x] d Hx _ IH]; constructor; [ | exact IH ].
      cbn [fst snd] in *.
      now rewrite !printable_app, encode_basestring_ascii_printable, Hx. }
  split; [ exact Hv | intros c; apply Hv ].
Qed.

Lemma plain_char_escape (c : N) :
  plain_char c = true ->
  escape_char c = String (ascii_of_N c) EmptyString.
Proof.
  unfold plain_char, escape_char. intros H.
  apply andb_true_iff in H as [H H92].
  apply andb_true_iff in H as [H H34].
  apply negb_true_iff in H92, H34.
  rewrite H34, H92, H.
  apply andb_true_iff in H as [Hlo Hhi]. apply N.leb_le in Hlo, Hhi.
  repeat match goal with
         | |- context [ (c =? ?k)%N ] =>
             destruct (N.eqb_spec c k); [ lia | ]
         end.
  reflexivity.
Qed.

(** A [str] of printable ASCII characters without double quote and
    backslash is written as it stands, between double quotes: such a log
    message can be read in the record letter for letter. *)
Theorem encode_plain_text (s : pystr) :
  forallb plain_char s = true ->
  encode_basestring_ascii s = (dquote ++ text_of s ++ dquote)%string.
Proof.
  intros H. unfold encode_basestring_ascii, text_of. do 2 f_equal.
  induction s as [|c s IH]; [ reflexivity | ].
  cbn [forallb] in H. apply andb_true_iff in H as [Hc Hs].
  cbn [map string_of_list_ascii]. rewrite <- (IH Hs).
  rewrite (plain_char_escape c Hc).
  destruct s as [|c' s']; reflexivity.
Qed.

(** Two state changes with the same record are the same change: the record
    tells the observer both the old and the new state. *)
Theorem state_change_record_injective (e1 e2 : State * State) :
  state_change_record e1 = state_change_record e2 -> e1 = e2.
Proof.
  destruct e1 as [[] []], e2 as [[] []]; intros H;
    try reflexivity; vm_compute in H; discriminate H.
Qed.

(** Records of calls of different methods differ: the record tells the
    observer which event it announces. *)
Theorem record_of_event_name (c1 c2 : callback_call) :
  record_of c1 = record_of c2 -> event_name c1 = event_name c2.
Proof.
  unfold record_of. rewrite !json_dumps_PyDict.
  destruct c1, c2; intros H; try reflexivity;
    cbn [published_event event_name is_z_change map fst snd app] in H;
    cbn [String.concat] in H;
    unfold encode_basestring_ascii at 1 2 3 4 in H;
    cbn in H; discriminate H.
Qed.

Lemma string_app_assoc (a b c : string) :
  ((a ++ b) ++ c = a ++ (b ++ c))%string.
Proof. induction a as [|x a IH]; simpl; [ reflexivity | now rewrite IH ]. Qed.

(** The record of [log] for a message of plain characters: the level in
    decimal and the message letter for letter between the fixed parts. *)
Theorem log_record_plain_text (level : Z) (message : pystr) :
  forallb plain_char message = true ->
  record_of (Call_log level message)
  = (sq "{'event': 'log', 'params': {'level': " ++ int_repr level
     ++ sq ", 'msg': '" ++ text_of message
     ++ sq "'}, 'jsonrpc': '2.0'}")%string.
Proof.
  intros H. unfold record_of.
  cbn [published_event is_z_change event_name spec_params app].
  rewrite json_dumps_PyDict. cbn [map fst snd].
  rewrite json_dumps_PyDict. cbn [map fst snd json_dumps].
  rewrite (encode_plain_text message H).
  cbn [String.concat].
  rewrite !string_app_assoc. reflexivity.
Qed.

End Base.

Arguments PyInt {float} z.
Arguments PyFloat {float} f.
Arguments PyStr {float} s.
Arguments PyDict {float} d.
Arguments Call_log {float} level message.
Arguments Call_state_change {float} old new.
Arguments Call_temp_update {float} _ _ _ _ _ _.
Arguments Call_position_update {float} x y z.
Arguments Call_progress_update {float} current_line total_lines.
Arguments Call_z_change {float} position.
Arguments Op_set_temp {float} bed nozzle1 nozzle2.
Arguments Op_home_head {float} x y z.
Arguments Op_execute_gcode {float} gcode_commands.
Arguments Op_pause_execution {float}.
Arguments Obj {float} obj_class obj_methods obj_self.
Arguments mkSpy {float Inner} seen inner.
Arguments seen {float Inner} s.
Arguments inner {float Inner} s.
Arguments mkIPrinter {float} _ _ _.
Arguments _state {float} i.
Arguments _to_printer {float} i.
Arguments _callbacks {float} i.
Arguments invoke {float Self} H self c.
Arguments obj_invoke {float} o c.
Arguments IPrinter__init__ {float} to_printer printer_callbacks baud_rate port.
Arguments _update_state {float} self new_state.
Arguments update_states {float} self new_states.
Arguments json_dumps {float} float_repr v.
Arguments _publish {float} float_repr self event.
Arguments QueuedPrinterCallbacks_log {float} float_repr self level message.
Arguments QueuedPrinterCallbacks_state_change {float} float_repr self old new.
Arguments QueuedPrinterCallbacks_temp_update {float} float_repr self _ _ _ _ _ _.
Arguments QueuedPrinterCallbacks_position_update {float} float_repr self x y z.
Arguments QueuedPrinterCallbacks_progress_update {float} float_repr self _ _.
Arguments QueuedPrinterCallbacks_z_change {float} float_repr self position.
Arguments spec_event {float} c.
Arguments spec_params {float} c.
Arguments published_event {float} c.
Arguments event_name {float} c.
Arguments is_z_change {float} c.
Arguments dict_get {float} d k.
Arguments dict_set {float} d k v.
Arguments keys {float} d.
Arguments state_changes {float} calls.
Arguments state_change_call {float} e.
Arguments state_change_record {float} float_repr e.
Arguments required_states {float} op.
Arguments call_operation {float} op self.
Arguments set_temp {float} self bed nozzle1 nozzle2.
Arguments EnumMember {float} cls member val.
Arguments Other {float} v.
Arguments State_obj {float} s.
Arguments StateEncoder_default {float} obj.
Arguments JSONEncoder_default {float} obj.

(** * The definitions at work *)

(** The classes with whole floats as their floats. *)
Local Abbreviation Queued :=
  (QueuedPrinterCallbacks_methods whole_float whole_float_repr).
Local Abbreviation Placeholder := (PrinterCallbacks_methods whole_float).
Local Abbreviation Watched :=
  (@Spy_methods whole_float PrinterCallbacks
     (PrinterCallbacks_methods whole_float)).
Local Abbreviation on q := (QueuedPrinterCallbacks__init__ q).

(** ** Records as they appear in the queue *)

Example log_record :
  fst (QueuedPrinterCallbacks_log whole_float_repr (on empty_queue)
         20 (str "bed heating"))
  = on {| maxsize := None;
          closed := false;
          items :=
            [ sq "{'event': 'log', 'params': {'level': 20, 'msg': 'bed heating'}, 'jsonrpc': '2.0'}" ] |}.
Proof. vm_compute. reflexivity. Qed.

Example state_change_record_text :
  fst (QueuedPrinterCallbacks_state_change whole_float_repr (on empty_queue)
         DISCONNECTED READY)
  = on {| maxsize := None;
          closed := false;
          items :=
            [ sq "{'event': 'state_change', 'params': {'old': 10, 'new': 20}, 'jsonrpc': '2.0'}" ] |}.
Proof. vm_compute. reflexivity. Qed.

Example temp_update_record :
  items (_from_printer
    (fst (QueuedPrinterCallbacks_temp_update whole_float_repr (on empty_queue)
            21 60 180 210 0 0)))
  = [ sq "{'event': 'temp_update', 'params': {'bed_current': 21.0, 'bed_target': 60.0, 'nozzle1_current': 180.0, 'nozzle1_target': 210.0, 'nozzle2_current': 0.0, 'nozzle2_target': 0.0}, 'jsonrpc': '2.0'}" ].
Proof. vm_compute. reflexivity. Qed.

Example position_update_record :
  items (_from_printer
    (fst (QueuedPrinterCallbacks_position_update whole_float_repr
            (on empty_queue) 10 (-20) 3)))
  = [ sq "{'event': 'position_update', 'params': {'x': 10.0, 'y': -20.0, 'z': 3.0}, 'jsonrpc': '2.0'}" ].
Proof. vm_compute. reflexivity. Qed.

Example progress_update_record :
  items (_from_printer
    (fst (QueuedPrinterCallbacks_progress_update whole_float_repr
            (on empty_queue) 50 100)))
  = [ sq "{'event': 'progress_update', 'params': {'current_line': 50, 'total_lines': 100}, 'jsonrpc': '2.0'}" ].
Proof. vm_compute. reflexivity. Qed.

Example z_change_record :
  items (_from_printer
    (fst (QueuedPrinterCallbacks_z_change whole_float_repr
            (on empty_queue) 12)))
  = [ sq "{'event': 'z_change', 'position': 12.0, 'jsonrpc': '2.0'}" ].
Proof. vm_compute. reflexivity. Qed.

(** A message with a quote, a line break and a letter outside ASCII. *)
Example log_record_escapes :
  items (_from_printer
    (fst (QueuedPrinterCallbacks_log whole_float_repr (on empty_queue)
            30 [34%N; 10%N; 233%N])))
  = [ sq "{'event': 'log', 'params': {'level': 30, 'msg': '\'\n\u00e9'}, 'jsonrpc': '2.0'}" ].
Proof. vm_compute. reflexivity. Qed.

(** ** State updates on actual controllers *)

Example update_states_watched :
  update_states
    (IPrinter__init__ empty_queue
       (Some (Obj (Spy whole_float PrinterCallbacks) Watched
                (mkSpy [] PrinterCallbacks__init__)))
       None None)
    [READY; EXECUTING; PAUSED; PAUSED; ERROR]
  = (mkIPrinter ERROR empty_queue
       (Obj (Spy whole_float PrinterCallbacks) Watched
          (mkSpy
             [ Call_state_change DISCONNECTED READY;
               Call_state_change READY EXECUTING;
               Call_state_change EXECUTING PAUSED;
               Call_state_change PAUSED PAUSED;
               Call_state_change PAUSED ERROR ]
             PrinterCallbacks__init__)),
     Returned tt).
Proof. reflexivity. Qed.

(** A run into a queue bounded to two records: the third update sets the
    state and then waits in [put]. *)
Example update_states_bounded_queue :
  update_states
    (IPrinter__init__ empty_queue
       (Some (Obj QueuedPrinterCallbacks Queued
                (on {| maxsize := Some 2%nat; closed := false; items := [] |})))
       None None)
    [READY; EXECUTING; PAUSED; READY]
  = (mkIPrinter PAUSED empty_queue
       (Obj QueuedPrinterCallbacks Queued
          (on {| maxsize := Some 2%nat;
                 closed := false;
                 items :=
                   [ sq "{'event': 'state_change', 'params': {'old': 10, 'new': 20}, 'jsonrpc': '2.0'}";
                     sq "{'event': 'state_change', 'params': {'old': 20, 'new': 30}, 'jsonrpc': '2.0'}" ] |})),
     Blocked).
Proof. reflexivity. Qed.

Example update_state_default_callbacks :
  _update_state (IPrinter__init__ (float := whole_float) empty_queue None None None)
    ERROR
  = (mkIPrinter ERROR empty_queue
       (Obj PrinterCallbacks Placeholder PrinterCallbacks__init__),
     Returned tt).
Proof. reflexivity. Qed.

(** ** The claims at actual arguments *)



(** C6, as first stated, fails: [set_temp(bed=60)] on a controller that is
    DISCONNECTED, a state outside the READY or PAUSED the operation asks
    for, returns; it does not raise [NotReadyException]. *)
Lemma set_temp_while_disconnected_returns :
  _state (IPrinter__init__ (float := whole_float) empty_queue None None None)
  = DISCONNECTED /\
  ~ In DISCONNECTED
      (required_states
         (Op_set_temp (float := whole_float) (Some 60) None None)) /\
  set_temp (IPrinter__init__ (float := whole_float) empty_queue None None None)
    (Some 60) None None
  = (IPrinter__init__ empty_queue None None None, Returned tt) /\
  snd (set_temp
         (IPrinter__init__ (float := whole_float) empty_queue None None None)
         (Some 60) None None)
  <> Raised NotReadyException.
Proof.
  split; [ reflexivity | ].
  split; [ simpl; intuition discriminate | ].
  split; [ reflexivity | discriminate ].
Qed.

Lemma publish_outcomes_witness :
  closed full_queue = false /\
  full full_queue = true /\
  _publish whole_float_repr (on full_queue)
    [ (str "event", PyStr (str "z_change")); (str "position", PyFloat 12) ]
  = (on full_queue, Blocked).
Proof.
  split; [ reflexivity | split; [ reflexivity | ] ].
  apply (proj1 (proj2 (proj2
           (publish_outcomes whole_float whole_float_repr (on full_queue)
              [ (str "event", PyStr (str "z_change"));
                (str "position", PyFloat 12) ]))));
    reflexivity.
Defined.

Lemma self_transition_fires_witness :
  accepts empty_queue = true /\
  _update_state
    (mkIPrinter READY empty_queue
       (Obj QueuedPrinterCallbacks Queued (on empty_queue))) READY
  = (mkIPrinter READY empty_queue
       (Obj QueuedPrinterCallbacks Queued
          (on (enqueue empty_queue
                 (state_change_record whole_float_repr (READY, READY))))),
     Returned tt).
Proof.
  split; [ reflexivity | ].
  apply (proj1 (proj2
           (@self_transition_fires whole_float whole_float_repr
              PrinterCallbacks Placeholder READY empty_queue empty_queue
              (mkSpy [] PrinterCallbacks__init__) eq_refl))).
Defined.

Lemma StateEncoder_default_name_witness :
  StateEncoder_default (State_obj (float := whole_float) ERROR)
  = Returned (PyStr (str "ERROR")) /\
  StateEncoder_default (State_obj (float := whole_float) ERROR)
  <> Returned (PyInt 100).
Proof.
  split.
  - apply (proj1 (proj2 (proj2 (StateEncoder_default_name whole_float
                                  whole_float_repr)))).
  - apply (proj1 (proj2 (proj2 (proj2 (StateEncoder_default_name whole_float
                                         whole_float_repr))))).
Defined.

(** C7, as first stated, fails: on an open queue bounded to one record that
    already holds one, publishing a state change neither returns nor
    raises; the call waits in [put] and the queue is as it was. *)
Lemma publish_on_full_queue_waits :
  closed full_queue = false /\
  full full_queue = true /\
  QueuedPrinterCallbacks_state_change whole_float_repr (on full_queue)
    DISCONNECTED READY
  = (on full_queue, Blocked) /\
  ~ (exists e : exn,
        snd (QueuedPrinterCallbacks_state_change whole_float_repr
               (on full_queue) DISCONNECTED READY)
        = Raised e).
Proof.
  repeat split.
  intros [e He]. vm_compute in He. discriminate He.
Qed.

(** ** The further properties at actual arguments *)

Arguments record_of {float} float_repr c.
Arguments invoke_all {float Self} H self calls.

Lemma State_of_value_iff_witness :
  value EXECUTING = 30 /\ State_of_value 30 = Some EXECUTING.
Proof.
  split; [ reflexivity | ].
  apply (proj2 (State_of_value_iff 30 EXECUTING)). reflexivity.
Defined.

Lemma StateEncoder_default_injective_witness :
  StateEncoder_default (State_obj (float := whole_float) PAUSED)
  = StateEncoder_default (State_obj PAUSED) /\
  PAUSED = PAUSED.
Proof.
  split; [ reflexivity | ].
  apply (StateEncoder_default_injective whole_float PAUSED PAUSED).
  reflexivity.
Defined.

Lemma publish_sets_jsonrpc_witness :
  dict_get (float := whole_float)
    [ (str "jsonrpc", PyStr (str "1.0")); (str "event", PyStr (str "x")) ]
    (str "jsonrpc")
  <> None /\
  exists d : dict whole_float,
    dict_get d (str "jsonrpc") = Some (PyStr (str "2.0")) /\
    keys d = [str "jsonrpc"; str "event"].
Proof.
  split; [ discriminate | ].
  destruct (publish_sets_jsonrpc whole_float whole_float_repr (on empty_queue)
              [ (str "jsonrpc", PyStr (str "1.0"));
                (str "event", PyStr (str "x")) ])
    as (d & _ & Hget & _ & _ & _ & Hkeys).
  exists d. split; [ exact Hget | ].
  apply Hkeys. discriminate.
Defined.

Lemma invoke_all_bounded_witness :
  closed full_queue = false /\
  maxsize full_queue = Some 1%nat /\
  invoke_all Queued (on full_queue)
    [ Call_log 20 (str "a"); Call_z_change 12 ]
  = (on full_queue, Blocked).
Proof.
  split; [ reflexivity | split; [ reflexivity | ] ].
  apply (invoke_all_bounded whole_float whole_float_repr 1%nat
           [ Call_log 20 (str "a"); Call_z_change 12 ] full_queue
           eq_refl eq_refl).
Defined.

Lemma update_state_unpublished_witness :
  accepts full_queue = false /\
  _update_state
    (mkIPrinter READY empty_queue
       (Obj QueuedPrinterCallbacks Queued (on full_queue))) EXECUTING
  = (mkIPrinter EXECUTING empty_queue
       (Obj QueuedPrinterCallbacks Queued (on full_queue)),
     Blocked).
Proof.
  split; [ reflexivity | ].
  apply (update_state_unpublished whole_float whole_float_repr
           READY EXECUTING empty_queue full_queue eq_refl).
Defined.

Lemma whole_float_repr_printable (f : whole_float) :
  printable (whole_float_repr f) = true.
Proof.
  unfold whole_float_repr.
  now rewrite printable_app, int_repr_printable.
Qed.

Lemma json_dumps_printable_witness :
  (forall f : whole_float, printable (whole_float_repr f) = true) /\
  printable
    (record_of whole_float_repr (Call_log 30 [34%N; 10%N; 233%N; 128512%N]))
  = true.
Proof.
  split; [ exact whole_float_repr_printable | ].
  apply (proj2 (json_dumps_printable whole_float whole_float_repr
                  whole_float_repr_printable)).
Defined.

Lemma log_record_plain_text_witness :
  forallb plain_char (str "bed heating") = true /\
  record_of whole_float_repr (Call_log 20 (str "bed heating"))
  = sq "{'event': 'log', 'params': {'level': 20, 'msg': 'bed heating'}, 'jsonrpc': '2.0'}".
Proof.
  split; [ reflexivity | ].
  apply (log_record_plain_text whole_float whole_float_repr 20
           (str "bed heating")).
  reflexivity.
Defined.

Lemma state_change_record_injective_witness :
  state_change_record whole_float_repr (READY, PAUSED)
  = sq "{'event': 'state_change', 'params': {'old': 20, 'new': 40}, 'jsonrpc': '2.0'}" /\
  (READY, PAUSED) = (READY, PAUSED).
Proof.
  split; [ reflexivity | ].
  apply (state_change_record_injective whole_float whole_float_repr).
  reflexivity.
Defined.

Lemma record_of_event_name_witness :
  record_of whole_float_repr (Call_z_change 12)
  = record_of whole_float_repr (Call_z_change 12) /\
  event_name (Call_z_change (float := whole_float) 12) = "z_change"%string.
Proof.
  split; [ reflexivity | ].
  apply (record_of_event_name whole_float whole_float_repr
           (Call_z_change 12) (Call_z_change 12)).
  reflexivity.
Defined.

(** A run into a queue bounded to two records that holds one: the first
    call fills it, the second waits. *)
Example invoke_all_fills_queue :
  invoke_all Queued
    (on {| maxsize := Some 2%nat; closed := false; items := ["earlier"%string] |})
    [ Call_progress_update 1 2; Call_progress_update 2 2 ]
  = (on {| maxsize := Some 2%nat;
           closed := false;
           items :=
             [ "earlier"%string;
               sq "{'event': 'progress_update', 'params': {'current_line': 1, 'total_lines': 2}, 'jsonrpc': '2.0'}" ] |},
     Blocked).
Proof. reflexivity. Qed.

Lemma abstract_operations_never_reject_witness :
  call_operation (Op_set_temp (Some 60) None None)
    (IPrinter__init__ (float := whole_float) empty_queue None None None)
  = (IPrinter__init__ empty_queue None None None, Returned tt).
Proof.
  apply (proj1 (abstract_operations_never_reject whole_float
                  (Op_set_temp (Some 60) None None)
                  (IPrinter__init__ empty_queue None None None))).
Defined.

(** A run of four updates into a queue bounded to two records: the third
    update is the one that waits, and the controller is in its state. *)
Lemma update_states_last_state_witness :
  exists k : nat,
    (k <= 4)%nat /\
    PAUSED = last_state DISCONNECTED (firstn k [READY; EXECUTING; PAUSED; READY]) /\
    (forall j : nat,
        (j < k)%nat ->
        snd (update_states
               (IPrinter__init__ empty_queue
                  (Some (Obj QueuedPrinterCallbacks Queued
                           (on {| maxsize := Some 2%nat;
                                  closed := false;
                                  items := [] |})))
                  None None)
               (firstn j [READY; EXECUTING; PAUSED; READY]))
        = Returned tt).
Proof.
  destruct (update_states_last_state whole_float
              [READY; EXECUTING; PAUSED; READY]
              (IPrinter__init__ empty_queue
                 (Some (Obj QueuedPrinterCallbacks Queued
                          (on {| maxsize := Some 2%nat;
                                 closed := false;
                                 items := [] |})))
                 None None))
    as (k & Hk & Hs & _ & _ & Hpre & _).
  exists k. split; [ exact Hk | ]. split; [ exact Hs | exact Hpre ].
Defined.
